(** * BudgetBuddy: the API route

    A shallow embedding of the one file of the repository that handles
    requests, the Hono route file under [app/api]: the application
    mounted under [/api], its single registered route [GET /hello] with
    the chain [clerkMiddleware(), handler], and the two handlers [GET]
    and [POST] the file exports to the Next.js runtime.

    The file is written against two libraries, Hono and
    [@hono/clerk-auth].  The parts of Hono it relies on (base path,
    route registration, matching, the composition of a chain, [c.json],
    the not-found handler) are modelled in [Module Hono]; the round
    trip to the identity provider made by [clerkMiddleware] is a
    parameter of the development. *)

From Stdlib Require Import String Ascii List ZArith Bool Lia.
From stdpp Require Import base option list strings gmap.

Local Open Scope Z_scope.

(** ** Strings *)

Module Str.

(** The double-quote character (code 34). *)
Definition dquote : ascii := Eval cbv in ascii_of_nat 34.

Definition of_char (a : ascii) : string := String a EmptyString.

(** [quoted s] is [s] between double quotes, for writing down the text
    of a JSON document. *)
Definition quoted (s : string) : string := String dquote (s +:+ of_char dquote).

(** JavaScript's [s.split(sep)] for a one-character separator: the
    result is never empty, and an empty input gives one empty piece. *)
Fixpoint split (sep : ascii) (s : string) : list string :=
  match s with
  | EmptyString => [EmptyString]
  | String a s' =>
      if Ascii.eqb a sep then EmptyString :: split sep s'
      else match split sep s' with
           | [] => [of_char a]
           | piece :: rest => String a piece :: rest
           end
  end.

(** [join sep l] is JavaScript's [l.join(sep)]. *)
Fixpoint join (sep : ascii) (l : list string) : string :=
  match l with
  | [] => EmptyString
  | [piece] => piece
  | piece :: rest => piece +:+ String sep (join sep rest)
  end.

(** [includes s t] is JavaScript's [s.includes(t)]. *)
Fixpoint includes (s t : string) : bool :=
  String.prefix t s ||
  match s with
  | EmptyString => false
  | String _ s' => includes s' t
  end.

Definition first (s : string) : option ascii :=
  match s with EmptyString => None | String a _ => Some a end.

Fixpoint last (s : string) : option ascii :=
  match s with
  | EmptyString => None
  | String a EmptyString => Some a
  | String _ s' => last s'
  end.

Definition tail (s : string) : string :=
  match s with EmptyString => EmptyString | String _ s' => s' end.

(** [drop n s] is JavaScript's [s.slice(n)]. *)
Fixpoint drop (n : nat) (s : string) : string :=
  match n, s with
  | S n', String _ s' => drop n' s'
  | _, _ => s
  end.

End Str.

(** ** JSON values and [JSON.stringify] *)

Module Json.

(** The values the route passes to [c.json]: objects whose fields are
    strings (or, in general, nested objects), in field order. *)
#[warnings="-register-all"]
Inductive value : Type :=
| Str (s : string)
| Obj (fields : list (string * value)).

Definition hex_digit (n : nat) : ascii :=
  if (n <? 10)%nat then ascii_of_nat (48 + n) else ascii_of_nat (87 + n).

(** One character of a quoted JSON string: the quote, the backslash and
    the control characters are escaped, everything else is copied. *)
Definition escape_char (a : ascii) : string :=
  let n := nat_of_ascii a in
  if (n =? 34)%nat then String "\" (Str.of_char Str.dquote)
  else if (n =? 92)%nat then "\\"
  else if (n =? 8)%nat then "\b"
  else if (n =? 9)%nat then "\t"
  else if (n =? 10)%nat then "\n"
  else if (n =? 12)%nat then "\f"
  else if (n =? 13)%nat then "\r"
  else if (n <? 32)%nat then
    "\u00" +:+ String (hex_digit (n / 16)) (Str.of_char (hex_digit (n mod 16)))
  else Str.of_char a.

Fixpoint escape (s : string) : string :=
  match s with
  | EmptyString => EmptyString
  | String a s' => escape_char a +:+ escape s'
  end.

Definition quote (s : string) : string :=
  String Str.dquote (escape s +:+ Str.of_char Str.dquote).

(** [JSON.stringify v], without indentation. *)
Fixpoint stringify (v : value) : string :=
  match v with
  | Str s => quote s
  | Obj fields =>
      let member (kv : string * value) := quote (fst kv) +:+ ":" +:+ stringify (snd kv) in
      "{" +:+ Str.join "," (map member fields) +:+ "}"
  end.

(** Field lookup on an object (first occurrence). *)
Definition field (key : string) (v : value) : option value :=
  match v with
  | Str _ => None
  | Obj fields => snd <$> List.find (fun kv => String.eqb (fst kv) key) fields
  end.

End Json.

(** ** Requests and responses *)

Module Http.

(** The methods the route file receives: it exports one handler for
    [GET] and one for [POST] and nothing else. *)
Inductive Method : Type := Get | Post.

Definition Method_eqb (a b : Method) : bool :=
  match a, b with
  | Get, Get | Post, Post => true
  | _, _ => false
  end.

(** An inbound request.  [path] is the path of the URL (no query
    string); header names are in lower case, as the Fetch [Headers]
    object keeps them; [cookies] is the parsed [cookie] header. *)
Record Request : Type := mkRequest {
  method : Method;
  path : string;
  query : list (string * string);
  headers : list (string * string);
  cookies : list (string * string);
  body : option string
}.

Inductive ContentType : Type := ApplicationJson | TextPlain.

Record Response : Type := mkResponse {
  status : Z;
  contentType : ContentType;
  bodyText : string
}.

End Http.

Export Http.

(** ** The authentication object of [@hono/clerk-auth] *)

Module ClerkTypes.

(** The object [getAuth(c)] returns: [userId] is [null] (here [None])
    for a signed-out request; the session claims travel with it. *)
Record AuthObject : Type := mkAuth {
  userId : option string;
  sessionClaims : list (string * string)
}.

Definition signedOut : AuthObject :=
  {| userId := None; sessionClaims := [] |}.

End ClerkTypes.

Export ClerkTypes.

(** ** Hono: context, handlers, routes, dispatch *)

Module Hono.

(** What the route stores in the per-request variables of the context
    ([c.set] / [c.get]). *)
Inductive ContextVar : Type :=
| ClerkAuth (auth : AuthObject)
| ClerkClient.

(** What the model records about a run, oldest first: a handler was
    called, a handler returned a response, the not-found handler
    supplied one. *)
Inductive Event : Type :=
| Called (name : string)
| Returned (name : string) (r : Response)
| NotFound (r : Response).

(** The context [c] handed to every handler of a request.  [res] is the
    response once the context is finalized.  [log] is bookkeeping of
    the model; no handler reads it. *)
Record Context : Type := mkContext {
  req : Request;
  var : gmap string ContextVar;
  res : option Response;
  log : list Event
}.

Definition newContext (r : Request) : Context :=
  {| req := r; var := ∅; res := None; log := [] |}.

Definition finalized (c : Context) : bool :=
  match res c with Some _ => true | None => false end.

(** [c.set(key, v)] *)
Definition c_set (key : string) (v : ContextVar) (c : Context) : Context :=
  {| req := req c; var := <[key := v]> (var c); res := res c; log := log c |}.

(** [c.get(key)] *)
Definition c_get (key : string) (c : Context) : option ContextVar :=
  var c !! key.

(** [c.res = r] *)
Definition set_res (r : Response) (c : Context) : Context :=
  {| req := req c; var := var c; res := Some r; log := log c |}.

Definition note (e : Event) (c : Context) : Context :=
  {| req := req c; var := var c; res := res c; log := log c ++ [e] |}.

(** The names of the handlers called, in the order of the calls. *)
Definition invokedOf (l : list Event) : list string :=
  omap (fun e => match e with Called name => Some name | _ => None end) l.

Definition invoked (c : Context) : list string := invokedOf (log c).



(** [c.json(obj)] and [c.json(obj, status)]: the status is 200 unless
    one is given. *)
Definition c_json (obj : Json.value) (st : option Z) : Response :=
  {| status := default 200 st; contentType := ApplicationJson;
     bodyText := Json.stringify obj |}.

(** [c.text(t, status)] *)
Definition c_text (t : string) (st : option Z) : Response :=
  {| status := default 200 st; contentType := TextPlain; bodyText := t |}.

(** Hono's default not-found handler. *)
Definition notFoundHandler (c : Context) : Response :=
  c_text "404 Not Found" (Some 404).

(** Hono's default error handler. *)
Definition errorHandler : Response :=
  c_text "Internal Server Error" (Some 500).

(** A handler [(c, next) => ...]: it may call [next], which runs the
    rest of the chain on the context, and it returns a [Response] or
    nothing. *)
Inductive Outcome : Type :=
| Respond (r : Response)
| Void.

Definition Next : Type := Context -> Context.

Definition Handler : Type := Context -> Next -> Context * Outcome.

(** One entry of the router: Hono registers every handler of
    [app.get(path, h1, ..., hn)] as an entry of its own, in order. *)
Record RouterRoute : Type := mkRoute {
  routeMethod : Method;
  routePath : string;
  handlerName : string;
  handler : Handler
}.

Record Hono : Type := mkHono {
  _basePath : string;
  routes : list RouterRoute
}.

(** [new Hono()] *)
Definition new : Hono := {| _basePath := "/"; routes := [] |}.

(** [mergePath(base, sub)] of [hono/utils/url]. *)
Definition mergePath (base sub : string) : string :=
  (if bool_decide (Str.first base = Some "/"%char) then EmptyString else "/")
  +:+ base
  +:+ (if String.eqb sub "/" then EmptyString
       else (if bool_decide (Str.last base = Some "/"%char) then EmptyString else "/")
            +:+ (if bool_decide (Str.first sub = Some "/"%char) then Str.tail sub else sub)).

(** [app.basePath(p)] *)
Definition basePath (p : string) (app : Hono) : Hono :=
  {| _basePath := mergePath (_basePath app) p; routes := routes app |}.

(** [app.get(p, ...handlers)]; each handler comes with the name the
    model logs when it is invoked. *)
Definition get (p : string) (handlers : list (string * Handler)) (app : Hono) : Hono :=
  {| _basePath := _basePath app;
     routes := routes app ++
       map (fun h => {| routeMethod := Get; routePath := mergePath (_basePath app) p;
                        handlerName := fst h; handler := snd h |}) handlers |}.

(** *** Matching *)

(** The segments of a pattern: a literal or a named parameter [:name]. *)
Inductive Segment : Type :=
| Lit (s : string)
| Param (name : string).

Definition parseSegment (s : string) : Segment :=
  match s with
  | String ":" name => Param name
  | _ => Lit s
  end.

(** [splitPath]: split on [/] and drop the empty piece before the
    leading slash. *)
Definition splitPath (p : string) : list string :=
  match Str.split "/" p with
  | EmptyString :: rest => rest
  | pieces => pieces
  end.

(** A literal matches the equal piece, a parameter any non-empty piece;
    pattern and path have the same number of pieces (a trailing slash
    is a piece of its own, so it matters). *)
Fixpoint matchSegments (pattern : list Segment) (pieces : list string) : bool :=
  match pattern, pieces with
  | [], [] => true
  | Lit s :: pattern', piece :: pieces' =>
      String.eqb s piece && matchSegments pattern' pieces'
  | Param _ :: pattern', piece :: pieces' =>
      negb (String.eqb piece EmptyString) && matchSegments pattern' pieces'
  | _, _ => false
  end.

Definition matchPath (pattern p : string) : bool :=
  matchSegments (map parseSegment (splitPath pattern)) (splitPath p).

Definition routeMatches (m : Method) (p : string) (rt : RouterRoute) : bool :=
  Method_eqb (routeMethod rt) m && matchPath (routePath rt) p.

(** [router.match(method, path)]: every matching entry, in
    registration order. *)
Definition routerMatch (rts : list RouterRoute) (m : Method) (p : string) : list RouterRoute :=
  List.filter (routeMatches m p) rts.

(** *** Composition and dispatch *)

(** [compose(handlers, onError, onNotFound)(c)]: call the first handler
    with a [next] that runs the others; a returned response becomes
    [c.res] unless the context is finalized already; when the chain is
    exhausted without a response the not-found handler supplies it. *)
Fixpoint compose (chain : list RouterRoute) (c : Context) : Context :=
  match chain with
  | [] =>
      if finalized c then c
      else let r := notFoundHandler c in set_res r (note (NotFound r) c)
  | rt :: rest =>
      let name := handlerName rt in
      let '(c', out) := handler rt (note (Called name) c) (compose rest) in
      match out with
      | Respond r =>
          let c'' := note (Returned name r) c' in
          if finalized c'' then c'' else set_res r c''
      | Void => c'
      end
  end.

(** The context after the request went through the application. *)
Definition dispatch (app : Hono) (r : Request) : Context :=
  compose (routerMatch (routes app) (method r) (path r)) (newContext r).

(** [app.fetch(request)]: the response of the finalized context; a
    context left without a response is an error. *)
Definition fetch (app : Hono) (r : Request) : Response :=
  match res (dispatch app r) with
  | Some resp => resp
  | None => errorHandler
  end.

End Hono.

(** ** [@hono/clerk-auth] *)

Module ClerkAuthLib.
Import Hono.

Section Middleware.

(** The round trip to the identity provider, [authenticateRequest]
    followed by [toAuth()]: whom the provider says the request belongs
    to.  It is outside the repository, hence a parameter. *)
Variable authenticateRequest : Request -> AuthObject.

(** [clerkMiddleware()], for a deployment whose keys are configured:
    store the authentication object (and the client) in the context,
    then [await next()].  It never answers the request itself. *)
Definition clerkMiddleware : Handler := fun c next =>
  let c1 := c_set "clerkAuth" (ClerkAuth (authenticateRequest (req c))) c in
  let c2 := c_set "clerk" ClerkClient c1 in
  (next c2, Void).

End Middleware.

(** [getAuth(c)] is [c.get('clerkAuth')]. *)
Definition getAuth (c : Context) : option AuthObject :=
  match c_get "clerkAuth" c with
  | Some (ClerkAuth auth) => Some auth
  | _ => None
  end.

End ClerkAuthLib.

(** ** The route file *)

Module Route.
Import Hono ClerkAuthLib.

Definition runtime : string := "edge".

(** The two objects the handler answers with. *)
Definition unauthorizedBody : Json.value :=
  Json.Obj [("message", Json.Str "Unauthorized")].

Definition helloBody (uid : string) : Json.value :=
  Json.Obj [("message", Json.Str "Hello Next.js!"); ("userId", Json.Str uid)].

(** The handler of [/hello].  [!auth?.userId] holds when there is no
    authentication object, when its [userId] is [null], and when it is
    the empty string. *)
Definition helloHandler : Handler := fun c _next =>
  let auth := getAuth c in
  match auth ≫= userId with
  | None => (c, Respond (c_json unauthorizedBody None))
  | Some uid =>
      if String.eqb uid EmptyString
      then (c, Respond (c_json unauthorizedBody None))
      else (c, Respond (c_json (helloBody uid) None))
  end.

Section App.

Variable authenticateRequest : Request -> AuthObject.

(** [const app = new Hono().basePath('/api')] followed by
    [app.get('/hello', clerkMiddleware(), (c) => ...)]. *)
Definition app : Hono :=
  get "/hello"
      [("clerkMiddleware", clerkMiddleware authenticateRequest);
       ("handler", helloHandler)]
      (basePath "/api" new).

(** [handle(app)] of [hono/vercel]. *)
Definition handle (a : Hono) : Request -> Response := fetch a.

Definition GET : Request -> Response := handle app.
Definition POST : Request -> Response := handle app.

(** The runtime calls the export named after the method of the request. *)
Definition serve (r : Request) : Response :=
  match method r with
  | Get => GET r
  | Post => POST r
  end.

End App.

End Route.

(** ** The resolver behind [clerkMiddleware] *)

Module AuthResolver.





Section Resolver.

(** The identity provider: [verify(token)] gives the user id and the
    claims of a valid token and nothing for an invalid or expired one. *)
Variable verify : string -> option (string * list (string * string)).


End Resolver.

End AuthResolver.

Import Hono ClerkAuthLib Route.

(** ** Sample requests and a sample identity provider *)

Module Samples.

Definition request (m : Method) (p : string) (hs : list (string * string))
    (b : option string) : Request :=
  {| method := m; path := p; query := []; headers := hs; cookies := []; body := b |}.

(** A provider that knows one session: the bearer token [tok_123]
    belongs to [user_123]. *)
Definition provider (r : Request) : AuthObject :=
  match List.find (fun h => String.eqb (fst h) "authorization") (headers r) with
  | Some (_, "Bearer tok_123") =>
      {| userId := Some "user_123"; sessionClaims := [("sid", "sess_1")] |}
  | _ => signedOut
  end.


Definition helloAnonymous : Request := request Get "/api/hello" [] None.

Definition helloSignedIn : Request :=
  request Get "/api/hello" [("authorization", "Bearer tok_123")] None.



End Samples.

(** ** The text of the bodies *)

Definition unauthorizedText : string :=
  "{" +:+ Str.quoted "message" +:+ ":" +:+ Str.quoted "Unauthorized" +:+ "}".

Definition helloText (uid : string) : string :=
  "{" +:+ Str.quoted "message" +:+ ":" +:+ Str.quoted "Hello Next.js!" +:+ ","
      +:+ Str.quoted "userId" +:+ ":" +:+ Str.quoted uid +:+ "}".

Definition notFoundResponse : Response :=
  {| status := 404; contentType := TextPlain; bodyText := "404 Not Found" |}.

(** ** Auxiliary definitions *)

(** The response the handler gives for an authentication object. *)
Definition answer (a : AuthObject) : Response :=
  match userId a with
  | None => c_json unauthorizedBody None
  | Some uid =>
      if String.eqb uid EmptyString then c_json unauthorizedBody None
      else c_json (helloBody uid) None
  end.






(** The request path without the base path, when it starts with it:
    the way the specification describes the dispatch. *)
Definition stripBase (base p : string) : option string :=
  if String.prefix base p then Some (Str.drop (String.length base) p) else None.

(** A pattern without a parameter. *)
Definition literalOnly (pattern : string) : bool :=
  forallb (fun seg => match seg with Lit _ => true | Param _ => false end)
          (map parseSegment (splitPath pattern)).

(** ** Reading an escaped string back *)

Definition hexValue (a : ascii) : option nat :=
  let n := nat_of_ascii a in
  if ((48 <=? n) && (n <=? 57))%nat then Some (n - 48)%nat
  else if ((97 <=? n) && (n <=? 102))%nat then Some (n - 87)%nat
  else None.

(** The first character a quoted JSON string stands for, and the rest of
    the text: the inverse of [Json.escape_char] at the head of a text. *)
Definition unescapeHead (s : string) : option (ascii * string) :=
  match s with
  | EmptyString => None
  | String a rest =>
      if Ascii.eqb a "\" then
        match rest with
        | EmptyString => None
        | String c rest' =>
            if Ascii.eqb c Str.dquote then Some (Str.dquote, rest')
            else if Ascii.eqb c "\" then Some ("\"%char, rest')
            else if Ascii.eqb c "b" then Some (ascii_of_nat 8, rest')
            else if Ascii.eqb c "t" then Some (ascii_of_nat 9, rest')
            else if Ascii.eqb c "n" then Some (ascii_of_nat 10, rest')
            else if Ascii.eqb c "f" then Some (ascii_of_nat 12, rest')
            else if Ascii.eqb c "r" then Some (ascii_of_nat 13, rest')
            else if Ascii.eqb c "u" then
              match rest' with
              | String z1 (String z2 (String h1 (String h2 rest''))) =>
                  if Ascii.eqb z1 "0" && Ascii.eqb z2 "0" then
                    match hexValue h1, hexValue h2 with
                    | Some x, Some y => Some (ascii_of_nat (16 * x + y), rest'')
                    | _, _ => None
                    end
                  else None
              | _ => None
              end
            else None
        end
      else Some (a, rest)
  end.

(** The text of the signed-in body before and after the user id. *)
Definition helloHead : string :=
  "{" +:+ Str.quoted "message" +:+ ":" +:+ Str.quoted "Hello Next.js!" +:+ ","
      +:+ Str.quoted "userId" +:+ ":" +:+ Str.of_char Str.dquote.

(** A provider that knows two sessions; the id of the second user has a
    double quote and a backslash in it. *)
Definition quotedUser : string :=
  "user" +:+ Str.of_char Str.dquote +:+ "\456".

Definition provider2 (r : Request) : AuthObject :=
  match List.find (fun h => String.eqb (fst h) "authorization") (headers r) with
  | Some (_, "Bearer tok_123") =>
      {| userId := Some "user_123"; sessionClaims := [] |}
  | Some (_, "Bearer tok_456") =>
      {| userId := Some quotedUser; sessionClaims := [] |}
  | _ => signedOut
  end.

Definition helloOtherUser : Request :=
  Samples.request Get "/api/hello" [("authorization", "Bearer tok_456")] None.

(** ** The navigation component *)

Module Navigation.

Record NavRoute : Type := mkNavRoute { href : string; label : string }.

(** [const routes = [...]] *)
Definition routes : list NavRoute :=
  [ {| href := "/"; label := "Overview" |};
    {| href := "/transactions"; label := "Transactions" |};
    {| href := "/accounts"; label := "Accounts" |};
    {| href := "/categories"; label := "Categories" |};
    {| href := "/settings"; label := "Settings" |} ].

(** The state of the component: [isOpen] of [useState(false)], and the
    calls made to [router.push], oldest first. *)
Record State : Type := mkState { isOpen : bool; pushed : list string }.

Definition initial : State := {| isOpen := false; pushed := [] |}.

(** [setIsOpen(b)] *)
Definition setIsOpen (b : bool) (st : State) : State :=
  {| isOpen := b; pushed := pushed st |}.

(** [onClick(href)]: [router.push(href)], then [setIsOpen(false)]. *)
Definition onClick (h : string) (st : State) : State :=
  setIsOpen false {| isOpen := isOpen st; pushed := pushed st ++ [h] |}.

(** What the hooks report at a render: [useMedia] and [usePathname]. *)
Record Env : Type := mkEnv { isMobile : bool; pathname : string }.

Inductive Variant : Type := Secondary | Ghost.

(** [<NavButton key href label isActive />] *)
Record NavButton : Type := mkNavButton {
  nbKey : string;
  nbHref : string;
  nbLabel : string;
  isActive : bool
}.

(** [<Button key variant onClick={() => onClick(route.href)}>label</Button>];
    [target] is the argument the click passes to [onClick]. *)
Record DrawerButton : Type := mkDrawerButton {
  dbKey : string;
  variant : Variant;
  target : string;
  dbLabel : string
}.

(** What the component returns, without the class names: the sheet with
    its [open] flag and its buttons, or the bar of nav buttons. *)
Inductive View : Type :=
| Sheet (open : bool) (items : list DrawerButton)
| Bar (items : list NavButton).

Definition Navigation (env : Env) (st : State) : View :=
  if isMobile env then
    Sheet (isOpen st)
      (map (fun route =>
              {| dbKey := href route;
                 variant := if String.eqb (href route) (pathname env)
                            then Secondary else Ghost;
                 target := href route;
                 dbLabel := label route |}) routes)
  else
    Bar (map (fun route =>
                {| nbKey := href route; nbHref := href route;
                   nbLabel := label route;
                   isActive := String.eqb (pathname env) (href route) |}) routes).

(** What the user does to a rendered view: the sheet reports a change of
    its open state, or the user presses the button at a position. *)
Inductive Action : Type :=
| OpenChange (b : bool)
| Press (i : nat).

(** The state after an action on the view rendered from [env] and [st]:
    [onOpenChange] is [setIsOpen], and a press on a button of the sheet
    is its [onClick]; the bar has neither. *)
Definition act (env : Env) (a : Action) (st : State) : State :=
  match Navigation env st, a with
  | Sheet _ _, OpenChange b => setIsOpen b st
  | Sheet _ items, Press i =>
      match items !! i with
      | Some button => onClick (target button) st
      | None => st
      end
  | Bar _, _ => st
  end.

Fixpoint run (steps : list (Env * Action)) (st : State) : State :=
  match steps with
  | [] => st
  | (env, a) :: rest => run rest (act env a st)
  end.

(** How many of the steps are presses. *)
Definition presses (steps : list (Env * Action)) : nat :=
  length (List.filter (fun step => match snd step with
                                   | Press _ => true
                                   | OpenChange _ => false
                                   end) steps).

Definition highlighted (v : View) : list string :=
  match v with
  | Sheet _ items =>
      map dbKey (List.filter (fun b => match variant b with
                                       | Secondary => true
                                       | Ghost => false
                                       end) items)
  | Bar items => map nbKey (List.filter isActive items)
  end.

(** The buttons of the sheet. *)
Definition buttons (v : View) : list DrawerButton :=
  match v with
  | Sheet _ items => items
  | Bar _ => []
  end.

End Navigation.

(** ** Facts about the route table *)

Section RouteTable.

Variable auth : Request -> AuthObject.

Lemma routes_app :
  routes (app auth) =
    [ mkRoute Get "/api/hello" "clerkMiddleware" (clerkMiddleware auth);
      mkRoute Get "/api/hello" "handler" helloHandler ].
Proof. reflexivity. Qed.

Lemma getAuth_after_clerk (c : Context) (a : AuthObject) (e : Event) :
  getAuth (note e (c_set "clerk" ClerkClient (c_set "clerkAuth" (ClerkAuth a) c))) = Some a.
Proof.
  unfold getAuth, c_get, note, c_set; simpl.
  rewrite lookup_insert_ne by discriminate.
  by rewrite lookup_insert_eq.
Qed.

End RouteTable.

(** ** Splitting and joining *)

Lemma split_not_nil (sep : ascii) (s : string) : Str.split sep s <> [].
Proof.
  destruct s as [|a s]; simpl; [discriminate|].
  destruct (Ascii.eqb a sep); [discriminate|].
  destruct (Str.split sep s); discriminate.
Qed.

Lemma join_split (sep : ascii) (s : string) : Str.join sep (Str.split sep s) = s.
Proof.
  induction s as [|a s IH]; [reflexivity|].
  simpl. destruct (Ascii.eqb_spec a sep) as [->|Hne].
  - pose proof (split_not_nil sep s) as Hnil.
    destruct (Str.split sep s) as [|piece rest]; [done|].
    change (Str.join sep (EmptyString :: piece :: rest))
      with (String sep (Str.join sep (piece :: rest))).
    by rewrite IH.
  - pose proof (split_not_nil sep s) as Hnil.
    destruct (Str.split sep s) as [|piece rest]; [done|].
    rewrite <- IH. destruct rest; reflexivity.
Qed.

Lemma split_inj (sep : ascii) (s t : string) :
  Str.split sep s = Str.split sep t -> s = t.
Proof.
  intros H. rewrite <- (join_split sep s), <- (join_split sep t). by rewrite H.
Qed.

(** ** Which requests reach the chain of [/hello] *)

Lemma matchSegments_literals (lits pieces : list string) :
  matchSegments (map Lit lits) pieces = true <-> pieces = lits.
Proof.
  revert pieces. induction lits as [|x lits IH]; intros [|piece pieces];
    cbn [map matchSegments]; try (split; [discriminate | done]); [done|].
  rewrite andb_true_iff, String.eqb_eq, IH. split.
  - by intros [-> ->].
  - by intros [= -> ->].
Qed.

Lemma split_rooted (p : string) :
  Str.first p = Some "/"%char -> Str.split "/" p = EmptyString :: splitPath p.
Proof.
  destruct p as [|a p]; [discriminate|]. intros [= ->].
  unfold splitPath. cbn [Str.split]. reflexivity.
Qed.

Lemma splitPath_inj (p q : string) :
  Str.first p = Some "/"%char -> Str.first q = Some "/"%char ->
  splitPath p = splitPath q -> p = q.
Proof.
  intros Hp Hq H. apply (split_inj "/").
  by rewrite (split_rooted p Hp), (split_rooted q Hq), H.
Qed.

(** For a pattern of literals, to match is to be equal (both the
    pattern and the path start with a slash). *)
Lemma matchPath_literal (pattern p : string) :
  literalOnly pattern = true ->
  Str.first pattern = Some "/"%char -> Str.first p = Some "/"%char ->
  (matchPath pattern p = true <-> p = pattern).
Proof.
  intros Hlit Hpat Hp. unfold matchPath.
  assert (Hsegs : map parseSegment (splitPath pattern) = map Lit (splitPath pattern)).
  { unfold literalOnly in Hlit. induction (splitPath pattern) as [|x l IH];
      [reflexivity|]. cbn [map forallb] in *.
    apply andb_true_iff in Hlit as [Hx Hl]. rewrite (IH Hl). f_equal.
    unfold parseSegment in *. destruct x as [|a x]; [reflexivity|].
    destruct (Ascii.ascii_dec a ":") as [->|Hne]; [discriminate|].
    destruct a as [[] [] [] [] [] [] [] []]; try reflexivity. by destruct Hne. }
  rewrite Hsegs, matchSegments_literals. split.
  - by apply splitPath_inj.
  - by intros ->.
Qed.

Lemma matchPath_hello_slash (p : string) :
  Str.first p = Some "/"%char ->
  (matchPath "/api/hello" p = true <-> p = "/api/hello").
Proof. intros Hp. by apply matchPath_literal. Qed.

Lemma prefix_drop (b p : string) :
  String.prefix b p = true -> p = b +:+ Str.drop (String.length b) p.
Proof.
  revert p. induction b as [|a b IH]; intros p; [by destruct p|].
  destruct p as [|a' p]; [discriminate|]. cbn [String.prefix].
  destruct (Ascii.ascii_dec a a') as [->|]; [|discriminate].
  intros H. cbn [String.length Str.drop]. change (String a' b +:+ ?t) with (String a' (b +:+ t)).
  f_equal. by apply IH.
Qed.

(** The registered pattern is the base path followed by the pattern
    given to [app.get]; matching it is matching [/hello] once the base
    path is stripped from the request path. *)
Lemma base_path_stripped (p : string) :
  Str.first p = Some "/"%char ->
  (matchPath (mergePath "/api" "/hello") p = true <->
   exists rest, stripBase "/api" p = Some rest /\
                Str.first rest = Some "/"%char /\
                matchPath "/hello" rest = true).
Proof.
  intros Hp. change (mergePath "/api" "/hello") with "/api/hello".
  rewrite (matchPath_hello_slash p Hp). split.
  - intros ->. by exists "/hello".
  - intros (rest & Hstrip & Hrest & Hmatch). unfold stripBase in Hstrip.
    destruct (String.prefix "/api" p) eqn:Hpre; [|discriminate].
    apply prefix_drop in Hpre.
    assert (Hr : Str.drop (String.length "/api") p = rest) by congruence.
    apply (matchPath_literal "/hello") in Hmatch; [|done..].
    by rewrite Hr, Hmatch in Hpre.
Qed.

Section Dispatch.

Variable auth : Request -> AuthObject.

Lemma routerMatch_hit (m : Method) (p : string) :
  m = Get -> matchPath "/api/hello" p = true ->
  routerMatch (routes (app auth)) m p = routes (app auth).
Proof.
  intros -> Hp. rewrite routes_app. unfold routerMatch, routeMatches; simpl.
  by rewrite Hp.
Qed.

Lemma routerMatch_miss (m : Method) (p : string) :
  m = Post \/ matchPath "/api/hello" p = false ->
  routerMatch (routes (app auth)) m p = [].
Proof.
  intros H. rewrite routes_app. unfold routerMatch, routeMatches; simpl.
  destruct H as [-> | ->]; [reflexivity|]. by rewrite andb_false_r.
Qed.

Lemma helloHandler_answer (c : Context) (next : Next) (a : AuthObject) :
  getAuth c = Some a -> helloHandler c next = (c, Respond (answer a)).
Proof.
  intros H. unfold helloHandler, answer. rewrite H. simpl.
  destruct (userId a) as [uid|]; [|reflexivity].
  by destruct (String.eqb uid EmptyString).
Qed.

(** A request that reaches the chain: the middleware runs, then the
    handler, and the handler's answer is the response. *)
Lemma dispatch_hello (r : Request) :
  method r = Get -> matchPath "/api/hello" (path r) = true ->
  res (dispatch (app auth) r) = Some (answer (auth r)) /\
  log (dispatch (app auth) r) =
    [Called "clerkMiddleware"; Called "handler"; Returned "handler" (answer (auth r))].
Proof.
  intros Hm Hp. unfold dispatch. rewrite routerMatch_hit, routes_app by done.
  cbn [compose handler handlerName clerkMiddleware].
  rewrite (helloHandler_answer _ _ (auth r)) by apply getAuth_after_clerk.
  split; reflexivity.
Qed.

(** A request that matches no entry of the router. *)
Lemma dispatch_miss (r : Request) :
  routerMatch (routes (app auth)) (method r) (path r) = [] ->
  res (dispatch (app auth) r) = Some notFoundResponse /\
  log (dispatch (app auth) r) = [NotFound notFoundResponse].
Proof.
  intros H. unfold dispatch. rewrite H. split; reflexivity.
Qed.

End Dispatch.

(** ** Chains of steps *)








Section Steps.

Variable auth : Request -> AuthObject.




End Steps.

(** ** Responses *)

Section Responses.

Variable auth : Request -> AuthObject.

Lemma fetch_hello (r : Request) :
  method r = Get -> matchPath "/api/hello" (path r) = true ->
  fetch (app auth) r = answer (auth r).
Proof.
  intros Hm Hp. unfold fetch. by destruct (dispatch_hello auth r Hm Hp) as [-> _].
Qed.

Lemma fetch_miss (r : Request) :
  routerMatch (routes (app auth)) (method r) (path r) = [] ->
  fetch (app auth) r = notFoundResponse.
Proof.
  intros H. unfold fetch. by destruct (dispatch_miss auth r H) as [-> _].
Qed.

(** Every request either reaches the chain of [/hello] or matches
    nothing. *)
Lemma hit_or_miss (r : Request) :
  (method r = Get /\ matchPath "/api/hello" (path r) = true) \/
  routerMatch (routes (app auth)) (method r) (path r) = [].
Proof.
  destruct (method r) eqn:Hm.
  - destruct (matchPath "/api/hello" (path r)) eqn:Hp; [by left|].
    right. apply routerMatch_miss. by right.
  - right. apply routerMatch_miss. by left.
Qed.


Lemma serve_fetch (r : Request) : serve auth r = fetch (app auth) r.
Proof. unfold serve, GET, POST, handle. by destruct (method r). Qed.

Lemma unmatched_routerMatch (r : Request) :
  Forall (fun rt => routeMatches (method r) (path r) rt = false) (routes (app auth)) ->
  routerMatch (routes (app auth)) (method r) (path r) = [].
Proof.
  unfold routerMatch. induction 1 as [|rt rts Hrt _ IH]; [reflexivity|].
  cbn [List.filter]. by rewrite Hrt.
Qed.

End Responses.




(** ** Properties of the route *)


(** On the same request the handler passes no status to [c.json], so
    the response carries Hono's default one; the notes of the
    repository pass 401 at this place. *)
Example hello_anonymous_status :
  status (fetch (app Samples.provider) Samples.helloAnonymous) = 200.
Proof. reflexivity. Qed.



(** C2: a request whose method and path match no registered entry (the
    registered patterns carry the base path [/api]) gets the 404
    response of the not-found handler, and no handler of any chain is
    called. *)
Theorem unmatched_not_found (auth : Request -> AuthObject) (r : Request) :
  Forall (fun rt => routeMatches (method r) (path r) rt = false) (routes (app auth)) ->
  fetch (app auth) r = notFoundResponse /\
  status (fetch (app auth) r) = 404 /\
  invoked (dispatch (app auth) r) = [] /\
  log (dispatch (app auth) r) = [NotFound notFoundResponse].
Proof.
  intros H. apply unmatched_routerMatch in H.
  destruct (dispatch_miss auth r H) as [_ Hlog].
  rewrite fetch_miss by done. unfold invoked. rewrite Hlog.
  split; [reflexivity|]. split; [reflexivity|]. split; reflexivity.
Qed.

Lemma unmatched_not_found_witness :
  Forall (fun rt => routeMatches Get "/api/accounts" rt = false)
         (routes (app Samples.provider)) /\
  fetch (app Samples.provider) (Samples.request Get "/api/accounts" [] None)
    = notFoundResponse /\
  status (fetch (app Samples.provider) (Samples.request Get "/api/accounts" [] None))
    = 404 /\
  invoked (dispatch (app Samples.provider) (Samples.request Get "/api/accounts" [] None))
    = [] /\
  log (dispatch (app Samples.provider) (Samples.request Get "/api/accounts" [] None))
    = [NotFound notFoundResponse].
Proof.
  assert (H : Forall (fun rt => routeMatches Get "/api/accounts" rt = false)
                     (routes (app Samples.provider))).
  { rewrite routes_app. repeat constructor. }
  split; [exact H|].
  exact (unmatched_not_found Samples.provider
           (Samples.request Get "/api/accounts" [] None) H).
Defined.

(** In terms of the request alone: with a path that starts with a
    slash, everything but [GET /api/hello] is unmatched. *)
Lemma unmatched_iff (auth : Request -> AuthObject) (r : Request) :
  Str.first (path r) = Some "/"%char ->
  (Forall (fun rt => routeMatches (method r) (path r) rt = false) (routes (app auth))
   <-> ~ (method r = Get /\ path r = "/api/hello")).
Proof.
  intros Hslash. rewrite routes_app. split.
  - intros H [Hm Hp]. inversion H as [|? ? Hrt _]; subst.
    unfold routeMatches in Hrt; cbn [routeMethod routePath] in Hrt.
    by rewrite Hm, Hp in Hrt.
  - intros H.
    assert (Hrt : forall n h, routeMatches (method r) (path r)
                                (mkRoute Get "/api/hello" n h) = false).
    { intros n h. unfold routeMatches; cbn [routeMethod routePath].
      destruct (method r) eqn:Hm; [|reflexivity]. cbn [Method_eqb andb].
      destruct (matchPath "/api/hello" (path r)) eqn:Hp; [|reflexivity].
      apply matchPath_hello_slash in Hp; [|exact Hslash]. by destruct H. }
    repeat constructor; apply Hrt.
Qed.

(** C3: a [GET /api/hello] request that the provider resolves to the
    user [user_123] gets a 200 response whose JSON body has the member
    ["userId":"user_123"]. *)
Theorem hello_user_123 (auth : Request -> AuthObject) (r : Request) :
  method r = Get -> path r = "/api/hello" -> userId (auth r) = Some "user_123" ->
  status (fetch (app auth) r) = 200 /\
  contentType (fetch (app auth) r) = ApplicationJson /\
  bodyText (fetch (app auth) r) = helloText "user_123" /\
  Str.includes (bodyText (fetch (app auth) r))
    (Str.quoted "userId" +:+ ":" +:+ Str.quoted "user_123") = true /\
  (exists obj : Json.value,
     bodyText (fetch (app auth) r) = Json.stringify obj /\
     Json.field "userId" obj = Some (Json.Str "user_123")).
Proof.
  intros Hm Hp Hu. rewrite fetch_hello by (by rewrite ?Hp).
  unfold answer. rewrite Hu. cbn [String.eqb].
  split; [reflexivity|]. split; [reflexivity|]. split; [reflexivity|].
  split; [vm_compute; reflexivity|].
  exists (helloBody "user_123"). split; reflexivity.
Qed.

Lemma hello_user_123_witness :
  method Samples.helloSignedIn = Get /\
  path Samples.helloSignedIn = "/api/hello" /\
  userId (Samples.provider Samples.helloSignedIn) = Some "user_123" /\
  status (fetch (app Samples.provider) Samples.helloSignedIn) = 200 /\
  contentType (fetch (app Samples.provider) Samples.helloSignedIn) = ApplicationJson /\
  bodyText (fetch (app Samples.provider) Samples.helloSignedIn) = helloText "user_123" /\
  Str.includes (bodyText (fetch (app Samples.provider) Samples.helloSignedIn))
    (Str.quoted "userId" +:+ ":" +:+ Str.quoted "user_123") = true /\
  (exists obj : Json.value,
     bodyText (fetch (app Samples.provider) Samples.helloSignedIn)
       = Json.stringify obj /\
     Json.field "userId" obj = Some (Json.Str "user_123")).
Proof.
  split; [reflexivity|]. split; [reflexivity|]. split; [reflexivity|].
  apply (hello_user_123 Samples.provider Samples.helloSignedIn); reflexivity.
Defined.

(** The same for any user id: the body is the serialized object with
    the two members [message] and [userId]. *)
Lemma hello_signed_in (auth : Request -> AuthObject) (r : Request) (uid : string) :
  method r = Get -> path r = "/api/hello" ->
  userId (auth r) = Some uid -> uid <> EmptyString ->
  fetch (app auth) r = c_json (helloBody uid) None /\
  Json.field "userId" (helloBody uid) = Some (Json.Str uid).
Proof.
  intros Hm Hp Hu Hne. rewrite fetch_hello by (by rewrite ?Hp).
  unfold answer. rewrite Hu.
  destruct (String.eqb_spec uid EmptyString); [done|]. by split.
Qed.


(** The two runs the route table allows. *)
Lemma chain_runs (auth : Request -> AuthObject) (r : Request) :
  log (dispatch (app auth) r) = [NotFound notFoundResponse] \/
  log (dispatch (app auth) r) =
    [Called "clerkMiddleware"; Called "handler"; Returned "handler" (answer (auth r))].
Proof.
  destruct (hit_or_miss auth r) as [[Hm Hp] | Hmiss].
  - right. by destruct (dispatch_hello auth r Hm Hp).
  - left. by destruct (dispatch_miss auth r Hmiss).
Qed.

(** ** The resolver *)





(** ** Routes that are not there *)




(** The pattern of the route left in a comment would match the path. *)
Lemma hello_param_pattern :
  matchPath "/api/hello/:test" "/api/hello/123" = true /\
  matchPath "/api/hello/:test" "/api/hello/" = false /\
  matchPath "/api/hello/:test" "/api/hello" = false.
Proof. repeat split; reflexivity. Qed.



(** ** Determinism and what the response depends on *)



(** C9: the file exports a [POST] handler, but only [GET /hello] is
    registered: every [POST] request, whatever its path, gets the 404
    response of the not-found handler, and no handler is called. *)
Theorem post_not_found (auth : Request -> AuthObject) (r : Request) :
  method r = Post ->
  POST auth r = notFoundResponse /\
  serve auth r = notFoundResponse /\
  invoked (dispatch (app auth) r) = [] /\
  log (dispatch (app auth) r) = [NotFound notFoundResponse].
Proof.
  intros Hm.
  assert (Hmiss : routerMatch (routes (app auth)) (method r) (path r) = []).
  { apply routerMatch_miss. by left. }
  destruct (dispatch_miss auth r Hmiss) as [_ Hlog].
  rewrite serve_fetch. unfold POST, handle. rewrite fetch_miss by done.
  unfold invoked. rewrite Hlog. split; [reflexivity|]. split; [reflexivity|].
  split; reflexivity.
Qed.

Lemma post_not_found_witness :
  method (Samples.request Post "/api/hello" [] (Some "{}")) = Post /\
  POST Samples.provider (Samples.request Post "/api/hello" [] (Some "{}"))
    = notFoundResponse /\
  serve Samples.provider (Samples.request Post "/api/hello" [] (Some "{}"))
    = notFoundResponse /\
  invoked (dispatch (app Samples.provider)
             (Samples.request Post "/api/hello" [] (Some "{}"))) = [] /\
  log (dispatch (app Samples.provider)
         (Samples.request Post "/api/hello" [] (Some "{}")))
    = [NotFound notFoundResponse].
Proof.
  split; [reflexivity|].
  apply (post_not_found Samples.provider
           (Samples.request Post "/api/hello" [] (Some "{}"))).
  reflexivity.
Defined.



(** ** More on strings *)

Lemma append_cons (x : ascii) (a b : string) : String x a +:+ b = String x (a +:+ b).
Proof. reflexivity. Qed.

Lemma append_nil (b : string) : EmptyString +:+ b = b.
Proof. reflexivity. Qed.

Lemma append_assoc (a b c : string) : (a +:+ b) +:+ c = a +:+ (b +:+ c).
Proof.
  induction a as [|x a IH]; [reflexivity|]. by rewrite !append_cons, IH.
Qed.

Lemma append_length (a b : string) :
  String.length (a +:+ b) = (String.length a + String.length b)%nat.
Proof.
  induction a as [|x a IH]; [reflexivity|].
  rewrite append_cons. cbn [String.length]. by rewrite IH.
Qed.

Lemma append_inv_head (s a b : string) : s +:+ a = s +:+ b -> a = b.
Proof.
  induction s as [|x s IH]; [done|]. rewrite !append_cons. intros [= H]. by apply IH.
Qed.

Lemma append_inv_tail (a b t : string) : a +:+ t = b +:+ t -> a = b.
Proof.
  revert b. induction a as [|x a IH]; intros [|y b] H.
  - reflexivity.
  - apply (f_equal String.length) in H.
    rewrite append_nil, append_cons in H. cbn [String.length] in H.
    rewrite append_length in H. lia.
  - apply (f_equal String.length) in H.
    rewrite append_nil, append_cons in H. cbn [String.length] in H.
    rewrite append_length in H. lia.
  - rewrite !append_cons in H. injection H as -> H. f_equal. by apply IH.
Qed.



(** ** [JSON.stringify] loses nothing *)

Lemma unescapeHead_escape_char (a : ascii) (s : string) :
  unescapeHead (Json.escape_char a +:+ s) = Some (a, s).
Proof. destruct a as [[] [] [] [] [] [] [] []]; reflexivity. Qed.

Lemma escape_inj (s t : string) : Json.escape s = Json.escape t -> s = t.
Proof.
  revert t. induction s as [|a s IH]; intros [|b t] H.
  - reflexivity.
  - apply (f_equal unescapeHead) in H. cbn [Json.escape] in H.
    by rewrite unescapeHead_escape_char in H.
  - apply (f_equal unescapeHead) in H. cbn [Json.escape] in H.
    by rewrite unescapeHead_escape_char in H.
  - apply (f_equal unescapeHead) in H. cbn [Json.escape] in H.
    rewrite !unescapeHead_escape_char in H. injection H as -> H.
    f_equal. by apply IH.
Qed.

Lemma stringify_helloBody (uid : string) :
  Json.stringify (helloBody uid) =
    helloHead +:+ ((Json.escape uid +:+ Str.of_char Str.dquote) +:+ "}").
Proof. reflexivity. Qed.

Lemma helloBody_inj (u1 u2 : string) :
  Json.stringify (helloBody u1) = Json.stringify (helloBody u2) -> u1 = u2.
Proof.
  rewrite !stringify_helloBody. intros H.
  apply append_inv_head, append_inv_tail, append_inv_tail in H.
  by apply escape_inj.
Qed.

Lemma helloBody_not_unauthorized (uid : string) :
  Json.stringify (helloBody uid) <> unauthorizedText.
Proof. rewrite stringify_helloBody. vm_compute. discriminate. Qed.


(** ** More properties of the route *)




(** X2: every entry the file registers is mounted under the base path:
    a request (path starting with a slash) matches an entry exactly when
    it is a [GET] whose path is [/api] followed by a path that matches
    the pattern [/hello] given to [app.get]. *)
Theorem registered_under_base_path
    (auth : Request -> AuthObject) (rt : RouterRoute) (r : Request) :
  In rt (routes (app auth)) ->
  Str.first (path r) = Some "/"%char ->
  (routeMatches (method r) (path r) rt = true <->
   method r = Get /\
   exists rest, stripBase "/api" (path r) = Some rest /\
                Str.first rest = Some "/"%char /\
                matchPath "/hello" rest = true).
Proof.
  intros Hin Hslash.
  assert (Hrt : routeMethod rt = Get /\ routePath rt = mergePath "/api" "/hello").
  { rewrite routes_app in Hin. destruct Hin as [<- | [<- | []]]; by split. }
  destruct Hrt as [Hmeth Hpat]. unfold routeMatches. rewrite Hmeth, Hpat.
  rewrite andb_true_iff, (base_path_stripped (path r) Hslash).
  destruct (method r); cbn [Method_eqb]; split; intros [H1 H2]; (done || by split).
Qed.

Lemma registered_under_base_path_witness :
  In (mkRoute Get "/api/hello" "handler" helloHandler) (routes (app Samples.provider)) /\
  Str.first (path Samples.helloAnonymous) = Some "/"%char /\
  (routeMatches (method Samples.helloAnonymous) (path Samples.helloAnonymous)
     (mkRoute Get "/api/hello" "handler" helloHandler) = true <->
   method Samples.helloAnonymous = Get /\
   exists rest, stripBase "/api" (path Samples.helloAnonymous) = Some rest /\
                Str.first rest = Some "/"%char /\
                matchPath "/hello" rest = true).
Proof.
  assert (Hin : In (mkRoute Get "/api/hello" "handler" helloHandler)
                   (routes (app Samples.provider))).
  { right. left. reflexivity. }
  split; [exact Hin|]. split; [reflexivity|].
  apply (registered_under_base_path Samples.provider _ Samples.helloAnonymous Hin).
  reflexivity.
Defined.

(** X3: the handler fails closed.  On any context, also one in which no
    middleware stored anything, it returns a response without calling
    [next] and without touching the context, and the body is something
    else than [{"message":"Unauthorized"}] only when the context holds
    an authentication object under [clerkAuth] whose user id is a
    non-empty string. *)
Theorem handler_fails_closed (c : Context) (next : Next) :
  exists resp : Response,
    helloHandler c next = (c, Respond resp) /\
    (bodyText resp <> unauthorizedText <->
     exists (a : AuthObject) (uid : string),
       c_get "clerkAuth" c = Some (ClerkAuth a) /\
       userId a = Some uid /\ uid <> EmptyString).
Proof.
  unfold helloHandler, getAuth.
  destruct (c_get "clerkAuth" c) as [[a|]|] eqn:Hget; cbn [mbind option_bind].
  - destruct (userId a) as [uid|] eqn:Hu.
    + destruct (String.eqb_spec uid EmptyString) as [->|Hne].
      * eexists. split; [reflexivity|]. split; [done|].
        intros (a' & uid' & [= <-] & Hu' & Hne'). congruence.
      * eexists. split; [reflexivity|]. split.
        -- intros _. by exists a, uid.
        -- intros _. apply helloBody_not_unauthorized.
    + eexists. split; [reflexivity|]. split; [done|].
      intros (a' & uid' & [= <-] & Hu' & _). congruence.
  - eexists. split; [reflexivity|]. split; [done|].
    by intros (a' & uid' & [=] & _).
  - eexists. split; [reflexivity|]. split; [done|].
    by intros (a' & uid' & [=] & _).
Qed.



(** X5: the body of [GET /api/hello] tells the users apart.  For two
    requests that the provider resolves to non-empty user ids, the
    bodies are equal exactly when the user ids are, whatever characters
    the ids contain. *)
Theorem hello_body_identifies_user
    (auth : Request -> AuthObject) (r1 r2 : Request) (u1 u2 : string) :
  method r1 = Get -> method r2 = Get ->
  path r1 = "/api/hello" -> path r2 = "/api/hello" ->
  userId (auth r1) = Some u1 -> userId (auth r2) = Some u2 ->
  u1 <> EmptyString -> u2 <> EmptyString ->
  (bodyText (fetch (app auth) r1) = bodyText (fetch (app auth) r2) <-> u1 = u2).
Proof.
  intros Hm1 Hm2 Hp1 Hp2 Hu1 Hu2 Hne1 Hne2.
  rewrite !fetch_hello by (by rewrite ?Hp1, ?Hp2). unfold answer.
  rewrite Hu1, Hu2.
  destruct (String.eqb_spec u1 EmptyString); [done|].
  destruct (String.eqb_spec u2 EmptyString); [done|].
  cbn [c_json bodyText]. split; [apply helloBody_inj | by intros ->].
Qed.

Lemma hello_body_identifies_user_witness :
  method Samples.helloSignedIn = Get /\ method helloOtherUser = Get /\
  path Samples.helloSignedIn = "/api/hello" /\ path helloOtherUser = "/api/hello" /\
  userId (provider2 Samples.helloSignedIn) = Some "user_123" /\
  userId (provider2 helloOtherUser) = Some quotedUser /\
  "user_123" <> EmptyString /\ quotedUser <> EmptyString /\
  (bodyText (fetch (app provider2) Samples.helloSignedIn)
     = bodyText (fetch (app provider2) helloOtherUser) <-> "user_123" = quotedUser).
Proof.
  repeat (split; [reflexivity|]).
  split; [discriminate|]. split; [discriminate|].
  apply (hello_body_identifies_user provider2 Samples.helloSignedIn helloOtherUser);
    (reflexivity || discriminate).
Defined.

(** ** The navigation component *)

Module NavigationFacts.
Import Navigation.

Lemma hrefs : map href routes =
  ["/"; "/transactions"; "/accounts"; "/categories"; "/settings"].
Proof. reflexivity. Qed.

(** X6: whatever the path name and whichever of the two views is
    rendered, at most one entry is highlighted: the entry whose [href]
    is the path name itself when the path name is one of the five, and
    none otherwise (a path below a route, such as [/transactions/42],
    highlights nothing). *)
Theorem at_most_one_highlighted (env : Env) (st : State) :
  (In (pathname env) (map href routes) /\
   highlighted (Navigation env st) = [pathname env]) \/
  (~ In (pathname env) (map href routes) /\
   highlighted (Navigation env st) = []).
Proof.
  destruct env as [mobile p]. cbn [pathname].
  destruct (String.eqb_spec p "/") as [->|H1];
    [left; by destruct mobile; vm_compute; auto|].
  destruct (String.eqb_spec p "/transactions") as [->|H2];
    [left; by destruct mobile; vm_compute; auto|].
  destruct (String.eqb_spec p "/accounts") as [->|H3];
    [left; by destruct mobile; vm_compute; auto 6|].
  destruct (String.eqb_spec p "/categories") as [->|H4];
    [left; by destruct mobile; vm_compute; auto 7|].
  destruct (String.eqb_spec p "/settings") as [->|H5];
    [left; by destruct mobile; vm_compute; auto 8|].
  right. split.
  - rewrite hrefs. cbn [In]. intros [?|[?|[?|[?|[?|[]]]]]]; congruence.
  - apply String.eqb_neq in H1, H2, H3, H4, H5.
    destruct mobile;
      cbn [Navigation isMobile pathname isOpen routes map href label highlighted];
      rewrite ?(String.eqb_sym _ p), H1, H2, H3, H4, H5; reflexivity.
Qed.

(** X7: a button of the sheet is highlighted for the very route it
    navigates to: once the path name is the target of a button, that
    button, and no other entry, is the highlighted one, in the sheet
    and in the bar. *)
Theorem pressed_button_is_highlighted
    (env env' : Env) (st st' : State) (i : nat) (b : DrawerButton) :
  buttons (Navigation env st) !! i = Some b ->
  pathname env' = target b ->
  highlighted (Navigation env' st') = [dbKey b].
Proof.
  intros Hb Hp.
  assert (Hkey : dbKey b = target b /\ In (target b) (map href routes)).
  { destruct env as [[] p]; cbn [Navigation isMobile buttons] in Hb; [|done].
    rewrite list_lookup_fmap in Hb.
    destruct (routes !! i) as [route|] eqn:Hr; [|done].
    injection Hb as <-. cbn [dbKey target]. split; [reflexivity|].
    apply in_map. apply list_elem_of_In. by eapply list_elem_of_lookup_2. }
  destruct Hkey as [-> Hin]. rewrite <- Hp in *.
  destruct (at_most_one_highlighted env' st') as [[_ H] | [Hnot _]]; done.
Qed.

Lemma pressed_button_is_highlighted_witness :
  buttons (Navigation (mkEnv true "/") initial) !! 2%nat
    = Some (mkDrawerButton "/accounts" Ghost "/accounts" "Accounts") /\
  pathname (mkEnv false "/accounts")
    = target (mkDrawerButton "/accounts" Ghost "/accounts" "Accounts") /\
  highlighted (Navigation (mkEnv false "/accounts") (mkState false ["/accounts"]))
    = [dbKey (mkDrawerButton "/accounts" Ghost "/accounts" "Accounts")].
Proof.
  split; [reflexivity|]. split; [reflexivity|].
  apply (pressed_button_is_highlighted (mkEnv true "/") (mkEnv false "/accounts")
           initial (mkState false ["/accounts"]) 2); reflexivity.
Defined.

Lemma act_pushed (env : Env) (a : Action) (st : State) :
  (length (pushed (act env a st)) <=
     length (pushed st) + match a with Press _ => 1 | OpenChange _ => 0 end)%nat /\
  (Forall (fun h => In h (map href routes)) (pushed st) ->
   Forall (fun h => In h (map href routes)) (pushed (act env a st))).
Proof.
  unfold act. destruct st as [o ps].
  destruct env as [[] p]; cbn [Navigation isMobile isOpen pushed];
    [|destruct a; split; cbn [pushed]; (lia || done)].
  destruct a as [b|i].
  - cbn [setIsOpen isOpen pushed]. split; (lia || done).
  - rewrite list_lookup_fmap.
    destruct (routes !! i) as [route|] eqn:Hr; cbn [fmap option_fmap option_map];
      [|split; cbn [pushed]; (lia || done)].
    cbn [target onClick setIsOpen isOpen pushed]. rewrite length_app. cbn [length].
    split; [lia|]. intros Hall. apply Forall_app. split; [exact Hall|].
    apply Forall_singleton. apply in_map, list_elem_of_In.
    by eapply list_elem_of_lookup_2.
Qed.

Lemma run_pushed (steps : list (Env * Action)) (st : State) :
  (length (pushed (run steps st)) <= length (pushed st) + presses steps)%nat /\
  (Forall (fun h => In h (map href routes)) (pushed st) ->
   Forall (fun h => In h (map href routes)) (pushed (run steps st))).
Proof.
  revert st. induction steps as [|[env a] steps IH]; intros st.
  - split; [unfold presses; cbn; lia | done].
  - cbn [run]. destruct (IH (act env a st)) as [IHw IHp].
    destruct (act_pushed env a st) as [Hw Hp]. split; [|auto].
    assert (Hpress : presses ((env, a) :: steps) =
                     (match a with Press _ => 1 | OpenChange _ => 0 end
                      + presses steps)%nat).
    { unfold presses. cbn [List.filter snd]. by destruct a. }
    lia.
Qed.

(** X8: from the initial state, whatever the user does and whatever the
    hooks report on the way, the component only ever navigates to
    entries of its table, and only on a press: opening and closing the
    sheet never calls [router.push], so the calls never outnumber the
    presses. *)
Theorem navigation_run (steps : list (Env * Action)) :
  Forall (fun h => In h (map href routes)) (pushed (run steps initial)) /\
  (length (pushed (run steps initial)) <= presses steps)%nat.
Proof.
  destruct (run_pushed steps initial) as [Hw Hp].
  split; [by apply Hp | exact Hw].
Qed.

Lemma run_app (steps more : list (Env * Action)) (st : State) :
  run (steps ++ more) st = run more (run steps st).
Proof.
  revert st. induction steps as [|[env a] steps IH]; intros st; [reflexivity|].
  cbn [app run]. apply IH.
Qed.

(** X9: choosing an entry in the sheet closes it.  After any history, a
    press on the button at a position of the table, in the view with the
    sheet, leaves the sheet closed and adds exactly one call to
    [router.push], with the [href] of the entry at that position. *)
Theorem press_closes_sheet
    (steps : list (Env * Action)) (env : Env) (i : nat) (route : NavRoute) :
  isMobile env = true -> routes !! i = Some route ->
  isOpen (run (steps ++ [(env, Press i)]) initial) = false /\
  pushed (run (steps ++ [(env, Press i)]) initial)
    = pushed (run steps initial) ++ [href route].
Proof.
  intros Hmobile Hroute. rewrite run_app. cbn [run]. unfold act.
  destruct env as [mobile p]. cbn [isMobile] in Hmobile. subst mobile.
  cbn [Navigation isMobile]. rewrite list_lookup_fmap, Hroute.
  cbn [fmap option_fmap option_map target onClick setIsOpen isOpen pushed].
  by split.
Qed.

Lemma press_closes_sheet_witness :
  isMobile (mkEnv true "/") = true /\
  routes !! 1%nat = Some (mkNavRoute "/transactions" "Transactions") /\
  isOpen (run ([(mkEnv true "/", OpenChange true)] ++ [(mkEnv true "/", Press 1)])
            initial) = false /\
  pushed (run ([(mkEnv true "/", OpenChange true)] ++ [(mkEnv true "/", Press 1)])
            initial)
    = pushed (run [(mkEnv true "/", OpenChange true)] initial)
        ++ [href (mkNavRoute "/transactions" "Transactions")].
Proof.
  split; [reflexivity|]. split; [reflexivity|].
  apply (press_closes_sheet [(mkEnv true "/", OpenChange true)] (mkEnv true "/") 1);
    reflexivity.
Defined.

End NavigationFacts.
